(** * CyCAD packaging descriptor ([setup.py])

    The repository consists of one build descriptor: a single call
    [setup(name=..., version=..., packages=find_packages(where="src"),
    package_dir={...}, install_requires=[], extras_require={...})].

    The embedding below follows that call.  The keyword arguments become a
    record with the keywords as field names; Python dict displays become
    [gmap string _] built by inserting the items from left to right (as the
    interpreter does); list displays become [list string].  [find_packages]
    belongs to setuptools and reads the file system, so both are taken as
    section variables and the descriptor is a function of the file-system
    state it is evaluated in. *)

From Stdlib Require Import Ascii.
From stdpp Require Import gmap strings list fin_maps.

Local Open Scope string_scope.

(** ** Python displays *)

(** A dict display [{k1: v1, ..., kn: vn}] evaluates its items in order and
    stores each one; a later item with an equal key replaces the earlier. *)
Definition dict_display {V : Type} (items : list (string * V)) : gmap string V :=
  foldl (fun d kv => <[kv.1 := kv.2]> d) ∅ items.

(** ** Keyword arguments received by [setup] *)

Record setup_kwargs : Type := SetupKwargs {
  name : string;
  version : string;
  packages : list string;
  package_dir : gmap string string;
  install_requires : list string;
  extras_require : gmap string (list string);
}.

(** ** Requirement strings

    A requirement string is a distribution name optionally followed by
    extras, a version specifier, a URL or an environment marker.  The
    predicates below recognise the characters that start or make up those
    trailing parts, and the characters a bare distribution name is made of. *)

Definition ascii_in (cs : list ascii) (c : ascii) : bool :=
  existsb (Ascii.eqb c) cs.

(** Characters of the version comparison operators
    [==], [!=], [<=], [>=], [<], [>], [~=], [===]. *)
Definition version_operator_chars : list ascii :=
  ["="; "<"; ">"; "!"; "~"]%char.

Definition is_version_operator_char (c : ascii) : bool :=
  ascii_in version_operator_chars c.

Definition has_version_operator (s : string) : bool :=
  existsb is_version_operator_char (String.list_ascii_of_string s).

(** Letters, digits, and the separators [-], [_], [.] allowed inside a
    distribution name. *)
Definition is_name_char (c : ascii) : bool :=
  let n := nat_of_ascii c in
  ((65 <=? n)%nat && (n <=? 90)%nat)
  || ((97 <=? n)%nat && (n <=? 122)%nat)
  || ((48 <=? n)%nat && (n <=? 57)%nat)
  || ascii_in ["-"; "_"; "."]%char c.

(** A bare name: non-empty and made of name characters only, hence without
    extras, specifier, URL or marker. *)
Definition is_bare_name (s : string) : bool :=
  match String.list_ascii_of_string s with
  | [] => false
  | cs => forallb is_name_char cs
  end.

(** ** The descriptor *)

Section Descriptor.

(** State of the file system at build time, and setuptools' package
    discovery: [find_packages where_ fs] lists the packages found below
    directory [where_] in [fs]. *)
Variable FileSystem : Type.
Variable find_packages : string -> FileSystem -> list string.

(** The list display bound to ["dev"] in [extras_require]. *)
Definition dev_requirements : list string :=
  [ "pytest";      (* For testing *)
    "flake8";      (* For linting *)
    "black";       (* For code formatting *)
    "isort";       (* For sorting imports *)
    "mypy";        (* For type checking *)
    "pre-commit"   (* For git pre-commit hooks *)
  ].

(** The keyword arguments of the [setup(...)] call, evaluated in file
    system [fs]. *)
Definition setup (fs : FileSystem) : setup_kwargs :=
  {| name := "CyCAD";
     version := "0.1.0";
     packages := find_packages "src" fs;
     package_dir := dict_display [("", "src")];
     install_requires := [];  (* Add runtime dependencies here (if any) *)
     extras_require := dict_display [("dev", dev_requirements)] |}.

End Descriptor.

Arguments setup {FileSystem} find_packages fs.

(** ** Facts about displays *)

Lemma dict_display_nil {V : Type} : dict_display (V := V) [] = ∅.
Proof. reflexivity. Qed.

Lemma dict_display_snoc {V : Type} (items : list (string * V)) (k : string) (v : V) :
  dict_display (items ++ [(k, v)])%list = <[k := v]> (dict_display items).
Proof. unfold dict_display. rewrite foldl_app. reflexivity. Qed.

Lemma dict_display_singleton {V : Type} (k : string) (v : V) :
  dict_display [(k, v)] = {[ k := v ]}.
Proof.
  change [(k, v)] with ([] ++ [(k, v)])%list.
  rewrite dict_display_snoc, dict_display_nil. apply insert_empty.
Qed.

(** The last item written for a key is the one a lookup returns. *)
Lemma dict_display_lookup_last {V : Type} (items : list (string * V)) (k : string) (v : V) :
  dict_display (items ++ [(k, v)])%list !! k = Some v.
Proof. rewrite dict_display_snoc. apply lookup_insert_eq. Qed.

(** A later item replaces an earlier one with the same key. *)
Example dict_display_duplicate_key :
  dict_display [("dev", ["pytest"]); ("dev", ["mypy"])] !! "dev" = Some ["mypy"].
Proof. apply (dict_display_lookup_last [("dev", ["pytest"])]). Qed.

(** ** Facts about requirement strings *)

Example versioned_requirement_detected :
  has_version_operator "pytest>=7.0" = true /\ is_bare_name "pytest>=7.0" = false.
Proof. split; reflexivity. Qed.

Example extras_requirement_not_bare :
  has_version_operator "black[jupyter]" = false /\ is_bare_name "black[jupyter]" = false.
Proof. split; reflexivity. Qed.

(** A string made of name characters holds no operator character. *)
Lemma name_char_not_operator (c : ascii) :
  is_name_char c = true -> is_version_operator_char c = false.
Proof.
  destruct c as [b0 b1 b2 b3 b4 b5 b6 b7].
  destruct b0, b1, b2, b3, b4, b5, b6, b7; vm_compute; congruence.
Qed.

Lemma bare_name_no_operator (s : string) :
  is_bare_name s = true -> has_version_operator s = false.
Proof.
  unfold is_bare_name, has_version_operator.
  destruct (String.list_ascii_of_string s) as [|c cs] eqn:Hs; [discriminate|].
  generalize (c :: cs). clear. intros cs.
  induction cs as [|c cs IH]; simpl; [reflexivity|].
  intros [Hc Hcs]%andb_prop.
  rewrite (name_char_not_operator c Hc). simpl. exact (IH Hcs).
Qed.

(** ** The mappings of the descriptor *)

Section DescriptorFacts.

Context {FileSystem : Type}.
Variable find_packages : string -> FileSystem -> list string.
Variable fs : FileSystem.

Lemma extras_require_setup :
  extras_require (setup find_packages fs) = {[ "dev" := dev_requirements ]}.
Proof. unfold setup; simpl. apply dict_display_singleton. Qed.

Lemma package_dir_setup :
  package_dir (setup find_packages fs) = {[ "" := "src" ]}.
Proof. unfold setup; simpl. apply dict_display_singleton. Qed.

Lemma extras_require_dev :
  extras_require (setup find_packages fs) !! "dev" = Some dev_requirements.
Proof. rewrite extras_require_setup. apply lookup_singleton_eq. Qed.

(** ** Properties of the descriptor *)

(** C4: the distributable name declared in the descriptor is the string
    ["CyCAD"]. *)
Theorem setup_name : name (setup find_packages fs) = "CyCAD".
Proof. reflexivity. Qed.

(** C5: the version declared in the descriptor is the string ["0.1.0"]. *)
Theorem setup_version : version (setup find_packages fs) = "0.1.0".
Proof. reflexivity. Qed.

(** C3: the collection of required (install-time) dependencies declared in
    the descriptor is empty. *)
Theorem setup_install_requires_empty :
  install_requires (setup find_packages fs) = [].
Proof. reflexivity. Qed.

(** C6: the package root mapping sends the empty prefix [""] to the
    directory ["src"]. *)
Theorem setup_package_dir_root :
  package_dir (setup find_packages fs) !! "" = Some "src".
Proof. rewrite package_dir_setup. apply lookup_singleton_eq. Qed.

(** C2: the ["dev"] group is the ordered list pytest (testing), flake8
    (linting), black (formatting), isort (import sorting), mypy (type
    checking), pre-commit (commit hooks). *)
Theorem setup_dev_group_order :
  extras_require (setup find_packages fs) !! "dev"
  = Some ["pytest"; "flake8"; "black"; "isort"; "mypy"; "pre-commit"].
Proof. exact extras_require_dev. Qed.

(** C1: the ["dev"] optional dependency group is declared and has exactly
    six entries. *)
Theorem setup_dev_group_length :
  length <$> (extras_require (setup find_packages fs) !! "dev") = Some 6.
Proof. rewrite extras_require_dev. reflexivity. Qed.

(** C7: every entry of the ["dev"] group is an unversioned bare tool name:
    it holds none of the operator characters [=], [<], [>], [!], [~], and
    it consists of name characters only, so nothing (extras, specifier, URL,
    marker) follows the name. *)
Theorem setup_dev_group_unversioned :
  exists reqs : list string,
    extras_require (setup find_packages fs) !! "dev" = Some reqs
    /\ Forall (fun r => has_version_operator r = false
                        /\ is_bare_name r = true) reqs.
Proof.
  exists dev_requirements. split; [exact extras_require_dev|].
  unfold dev_requirements.
  repeat (apply Forall_cons; split; [split; vm_compute; reflexivity|]).
  apply Forall_nil_2.
Qed.

(** C10: the entries of the ["dev"] group are pairwise distinct. *)
Theorem setup_dev_group_nodup :
  exists reqs : list string,
    extras_require (setup find_packages fs) !! "dev" = Some reqs
    /\ NoDup reqs.
Proof.
  exists dev_requirements. split; [exact extras_require_dev|].
  unfold dev_requirements.
  repeat (apply NoDup_cons; split;
          [rewrite ?elem_of_cons, elem_of_nil; intros H;
           repeat (destruct H as [H|H]; [discriminate H|]); exact H|]).
  apply NoDup_nil_2.
Qed.

(** C9: ["dev"] is the only key of the optional-dependency mapping; for any
    other group name no group is declared. *)
Theorem setup_extras_only_dev :
  dom (extras_require (setup find_packages fs)) = {[ "dev" ]}
  /\ forall group : string,
       group <> "dev" ->
       extras_require (setup find_packages fs) !! group = None.
Proof.
  rewrite extras_require_setup. split.
  - apply dom_singleton_L.
  - intros group Hne. apply lookup_singleton_ne. congruence.
Qed.

End DescriptorFacts.

(** C8: the package list is not written out in the descriptor; in every
    file-system state it is what package discovery returns for the root
    ["src"].  Consequently no fixed list is the package list under every
    discovery function and file system. *)
Theorem setup_packages_discovered :
  (forall (FileSystem : Type)
          (find_packages : string -> FileSystem -> list string)
          (fs : FileSystem),
      packages (setup find_packages fs) = find_packages "src" fs)
  /\ (forall enumeration : list string,
        exists (FileSystem : Type)
               (find_packages : string -> FileSystem -> list string)
               (fs : FileSystem),
          packages (setup find_packages fs) <> enumeration).
Proof.
  split; [reflexivity|].
  intros enumeration.
  exists (list string), (fun _ found => found), ("cycad" :: enumeration).
  simpl. intros Heq.
  apply (f_equal length) in Heq. simpl in Heq. lia.
Qed.

(** The group name ["docs"] is not declared; the file system is given here
    as the list of its packages. *)
Lemma setup_extras_only_dev_witness :
  "docs" <> "dev"
  /\ extras_require (setup (fun _ (found : list string) => found) []) !! "docs"
     = None.
Proof.
  split.
  - discriminate.
  - apply (proj2 (setup_extras_only_dev (fun _ (found : list string) => found) [])).
    discriminate.
Defined.

(** ** How the fields of the descriptor fit together *)

Section DescriptorConsistency.

Context {FileSystem : Type}.
Variable find_packages : string -> FileSystem -> list string.
Variable fs : FileSystem.

(** X1: the empty prefix is the only key of the package root mapping; no
    named package prefix is redirected to a directory of its own. *)
Theorem setup_package_dir_only_root :
  dom (package_dir (setup find_packages fs)) = {[ "" ]}
  /\ forall prefix : string,
       prefix <> "" ->
       package_dir (setup find_packages fs) !! prefix = None.
Proof.
  rewrite package_dir_setup. split.
  - apply dom_singleton_L.
  - intros prefix Hne. apply lookup_singleton_ne. congruence.
Qed.

(** X2: the directory scanned by package discovery is the directory the
    package root mapping assigns to the empty prefix, so the discovered
    packages are located where the build looks for them. *)
Theorem setup_discovery_root_is_package_root :
  exists root : string,
    package_dir (setup find_packages fs) !! "" = Some root
    /\ packages (setup find_packages fs) = find_packages root fs.
Proof.
  exists "src". split.
  - rewrite package_dir_setup. apply lookup_singleton_eq.
  - reflexivity.
Qed.


End DescriptorConsistency.

(** The prefix ["cycad"] has no directory of its own. *)
Lemma setup_package_dir_only_root_witness :
  "cycad" <> ""
  /\ package_dir (setup (fun _ (found : list string) => found) []) !! "cycad"
     = None.
Proof.
  split.
  - discriminate.
  - apply (proj2 (setup_package_dir_only_root
                    (fun _ (found : list string) => found) [])).
    discriminate.
Defined.

